(** * Deirokay: the statement contract and the Airflow operator

    A shallow embedding of [deirokay/statements/base_statement.py] and
    [deirokay/airflow/deirokay_operator.py], and the properties of the
    statement execution contract that hold of them.

    Python values are an inductive type, a [dict] is an association list in
    insertion order (iteration order is what the error message shows), an
    instance is its attribute dictionary, and a method is a computation over
    that dictionary that either returns or raises. *)

From Stdlib Require Import ZArith.
From stdpp Require Import base option list strings gmap.

Set Warnings "-register-all".
Open Scope string_scope.

(** ** Python values *)

Inductive PyVal : Type :=
| PyNone
| PyBool (b : bool)
| PyInt (n : Z)
| PyStr (s : string)
| PyList (xs : list PyVal)
| PyDict (items : list (string * PyVal)).

(** A [dict] with [str] keys, in insertion order. *)
Abbreviation pydict := (list (string * PyVal)).

(** [list(d)], which is also the order of [for k in d]. *)
Definition keys (d : pydict) : list string := d.*1.

(** [d[k]]; [None] stands for the [KeyError]. *)
Fixpoint getitem (d : pydict) (k : string) : option PyVal :=
  match d with
  | [] => None
  | (k', v) :: d' => if decide (k' = k) then Some v else getitem d' k
  end.

(** ** Exceptions *)

(** The parts of an f-string: literal text, and the replacement fields.  A
    field holding a [str] is shown as it is, one holding a list of [str] is
    shown by [repr]. *)
Inductive fragment : Type :=
| Lit (text : string)
| FmtStr (s : string)
| FmtList (l : list string).

(** The escape [\n] of a Python literal. *)
Definition newline : string := String (Ascii.ascii_of_nat 10) EmptyString.

Inductive exn : Type :=
| ValueError (message : list fragment)
| NotImplementedError
| Exception (class_name : string) (message : string).

(** ** Computations that read and write a state and may raise

    The state after a [raise] is kept: what a method assigned before it
    raised stays assigned. *)

Definition M (S A : Type) : Type := S → S * (exn + A).

Definition ret {S A} (a : A) : M S A := λ σ, (σ, inr a).
Definition raise {S A} (e : exn) : M S A := λ σ, (σ, inl e).
Definition bind {S A B} (m : M S A) (k : A → M S B) : M S B :=
  λ σ, match m σ with
       | (σ', inr a) => k a σ'
       | (σ', inl e) => (σ', inl e)
       end.

Declare Scope py_scope.
Delimit Scope py_scope with py.
Notation "x <- m ;; k" := (bind m (λ x, k))
  (at level 100, m at next level, right associativity) : py_scope.
Notation "m ;;; k" := (bind m (λ _, k))
  (at level 100, right associativity) : py_scope.
Open Scope py_scope.

(** [self.<name> = v] *)
Definition setattr (name : string) (v : PyVal) : M (gmap string PyVal) () :=
  λ self, (<[name := v]> self, inr ()).

(** A method that only reads [self]. *)
Definition reads {S A} (f : S → A) : M S A := λ σ, (σ, inr (f σ)).

(** ** [deirokay.statements.base_statement] *)

Module BaseStatement.

Section Statements.

(** [pd.DataFrame]: nothing in the module looks inside one. *)
Variable DataFrame : Type.

(** An instance is its [__dict__]. *)
Abbreviation Self := (gmap string PyVal).

(** A statement class: [BaseStatement] or a subclass of it.  Each member is
    what the class body declares itself; [None] is a member the class does
    not declare and so inherits.  An overriding [report] or [result] is a
    method like any other: it may read the instance's attributes, assign
    them, and raise; when it returns, it returns a [dict], respectively a
    [bool], as annotated. *)
Record StatementClass : Type := {
  __name__ : string;
  own_name : option string;
  own_expected_parameters : option (list string);
  own_table_only : option bool;
  own_report : option (DataFrame → M Self pydict);
  own_result : option (pydict → M Self bool);
  own_profile : option (DataFrame → exn + pydict);
}.

(** The class attributes of [BaseStatement]. *)
Definition base_name : string := "base_statement".
Definition base_expected_parameters : list string :=
  ["type"; "severity"; "location"].
Definition base_table_only : bool := false.

(** Attribute lookup on a class: its own declaration, else the base's. *)
Definition name (cls : StatementClass) : string :=
  default base_name (own_name cls).
Definition expected_parameters (cls : StatementClass) : list string :=
  default base_expected_parameters (own_expected_parameters cls).
Definition table_only (cls : StatementClass) : bool :=
  default base_table_only (own_table_only cls).

(** [BaseStatement] itself declares everything and overrides nothing. *)
Definition BaseStatement : StatementClass :=
  {| __name__ := "BaseStatement";
     own_name := None;
     own_expected_parameters := None;
     own_table_only := None;
     own_report := None;
     own_result := None;
     own_profile := None |}.

(** [cls.expected_parameters + BaseStatement.expected_parameters] *)
Definition accepted_parameters (cls : StatementClass) : list string :=
  expected_parameters cls ++ base_expected_parameters.

(** The list comprehension of [_validate_options]. *)
Definition unexpected_parameters (cls : StatementClass) (options : pydict)
  : list string :=
  filter (λ option, option ∉ accepted_parameters cls) (keys options).

Definition invalid_parameters_message (cls : StatementClass)
    (unexpected : list string) : list fragment :=
  [ Lit "Invalid parameters passed to "; FmtStr (__name__ cls);
    Lit " statement: "; FmtList unexpected;
    Lit (newline +:+ "The valid parameters are: ");
    FmtList (expected_parameters cls) ].

Definition _validate_options (cls : StatementClass) (options : pydict)
  : M Self () :=
  let unexpected := unexpected_parameters cls options in
  match unexpected with
  | [] => ret ()
  | _ :: _ => raise (ValueError (invalid_parameters_message cls unexpected))
  end.

Definition __init__ (cls : StatementClass) (options : pydict) : M Self () :=
  _validate_options cls options ;;;
  setattr "options" (PyDict options).

(** [BaseStatement.report] and [BaseStatement.result]. *)
Definition base_report (df : DataFrame) : M Self pydict := ret [].
Definition base_result (report : pydict) : M Self bool := ret true.

(** [self.report(df)] and [self.result(report)], resolved on [type(self)]. *)
Definition report (cls : StatementClass) (df : DataFrame) : M Self pydict :=
  default base_report (own_report cls) df.
Definition result (cls : StatementClass) (report : pydict) : M Self bool :=
  default base_result (own_result cls) report.

Definition __call__ (cls : StatementClass) (df : DataFrame) : M Self PyVal :=
  internal_report <- report cls df ;;
  result <- result cls internal_report ;;
  let final_report :=
    PyDict [ ("detail", PyDict internal_report); ("result", PyBool result) ] in
  ret final_report.

(** [BaseStatement.profile], a static method. *)
Definition base_profile (df : DataFrame) : exn + pydict :=
  inl NotImplementedError.

Definition profile (cls : StatementClass) (df : DataFrame) : exn + pydict :=
  default base_profile (own_profile cls) df.

(** [cls(options)]: a fresh instance, then [__init__] on it; the instance is
    the value of the call only when [__init__] returns. *)
Definition construct (cls : StatementClass) (options : pydict) : exn + Self :=
  match __init__ cls options ∅ with
  | (self, inr _) => inr self
  | (_, inl e) => inl e
  end.

End Statements.

Arguments __name__ {DataFrame} _.
Arguments own_name {DataFrame} _.
Arguments own_expected_parameters {DataFrame} _.
Arguments own_table_only {DataFrame} _.
Arguments own_report {DataFrame} _.
Arguments own_result {DataFrame} _.
Arguments own_profile {DataFrame} _.
Arguments BaseStatement {DataFrame}.
Arguments name {DataFrame} cls.
Arguments expected_parameters {DataFrame} cls.
Arguments table_only {DataFrame} cls.
Arguments accepted_parameters {DataFrame} cls.
Arguments unexpected_parameters {DataFrame} cls options.
Arguments invalid_parameters_message {DataFrame} cls unexpected.
Arguments _validate_options {DataFrame} cls options _.
Arguments __init__ {DataFrame} cls options _.
Arguments base_report {DataFrame} df _.
Arguments report {DataFrame} cls df _.
Arguments result {DataFrame} cls report _.
Arguments __call__ {DataFrame} cls df _.
Arguments base_profile {DataFrame} df.
Arguments profile {DataFrame} cls df.
Arguments construct {DataFrame} cls options.

End BaseStatement.

(** ** [deirokay.airflow.deirokay_operator] *)

Module DeirokayOperator.

Section Operator.

(** What the module imports and does not define: Airflow's [BaseOperator],
    whose constructor takes the keyword arguments left over, and the two entry
    points of the [deirokay] package.  The entry points read files, so they
    are computations over the state of the outside world. *)
Variable DataFrame : Type.
Variable World : Type.
Variable BaseOperator : Type.
Variable BaseOperator__init__ : pydict → exn + BaseOperator.
Variable data_reader : string → string → M World DataFrame.
Variable validate : DataFrame → string → M World PyVal.

(** An operator: what [BaseOperator.__init__] made of the instance, and the
    three attributes [__init__] assigns. *)
Record DeirokayOperator : Type := {
  base : BaseOperator;
  path_to_file : string;
  deirokay_options_json : string;
  deirokay_assertions_json : string;
}.

Definition ui_color : string := "#1d3e63".

Definition __init__ (path_to_file deirokay_options_json
    deirokay_assertions_json : string) (save_json : option string)
    (kwargs : pydict) : exn + DeirokayOperator :=
  match BaseOperator__init__ kwargs with
  | inl e => inl e
  | inr self =>
      inr {| base := self;
             path_to_file := path_to_file;
             deirokay_options_json := deirokay_options_json;
             deirokay_assertions_json := deirokay_assertions_json |}
  end.

Definition execute (self : DeirokayOperator) (context : PyVal)
  : M World string :=
  df <- data_reader (path_to_file self) (deirokay_options_json self) ;;
  validate df (deirokay_assertions_json self) ;;;
  ret (path_to_file self).

End Operator.

Arguments base {BaseOperator} _.
Arguments path_to_file {BaseOperator} _.
Arguments deirokay_options_json {BaseOperator} _.
Arguments deirokay_assertions_json {BaseOperator} _.
Arguments __init__ {BaseOperator} BaseOperator__init__ _ _ _ save_json kwargs.
Arguments execute {DataFrame World BaseOperator} data_reader validate self context _.

End DeirokayOperator.

(** ** Statement classes to run the definitions on

    Subclasses in the way the module's docstring describes one: each declares
    its own [expected_parameters] and overrides [report], [result] or both.
    Their frames are lists of rows. *)

Module Samples.
Import BaseStatement.

Definition Frame : Type := list (list PyVal).

(** [self.options[k]], with [default] when the attribute or key is absent. *)
Definition option_int (self : gmap string PyVal) (k : string) (default : Z) : Z :=
  match self !! "options" with
  | Some (PyDict options) =>
      match getitem options k with Some (PyInt n) => n | _ => default end
  | _ => default
  end.

Definition row_count_report (df : Frame) : M (gmap string PyVal) pydict :=
  ret [ ("rows", PyInt (Z.of_nat (length df))) ].

Definition row_count_result (report : pydict) : M (gmap string PyVal) bool :=
  reads (λ self,
    match getitem report "rows" with
    | Some (PyInt n) => bool_decide (option_int self "min" 0 ≤ n)%Z
    | _ => false
    end).

Definition RowCount : StatementClass Frame :=
  {| __name__ := "RowCount";
     own_name := Some "row_count";
     own_expected_parameters := Some ["min"; "max"];
     own_table_only := Some true;
     own_report := Some row_count_report;
     own_result := Some row_count_result;
     own_profile := None |}.

(** A subclass whose report phase needs an option: it returns
    [{'min': self.options['min']}], and the subscript raises [KeyError] on a
    mapping without [min]. *)
Definition strict_min_report (df : Frame) : M (gmap string PyVal) pydict :=
  λ self,
    match self !! "options" with
    | Some (PyDict options) =>
        match getitem options "min" with
        | Some v => (self, inr [("min", v)])
        | None => (self, inl (Exception "KeyError" "min"))
        end
    | _ => (self, inl (Exception "AttributeError" "options"))
    end.

Definition StrictMin : StatementClass Frame :=
  {| __name__ := "StrictMin";
     own_name := Some "strict_min";
     own_expected_parameters := Some ["min"];
     own_table_only := None;
     own_report := Some strict_min_report;
     own_result := None;
     own_profile := None |}.






(** Stand-ins for what the operator module imports.  The outside world is
    the files there are, by path; reading a path that is not there raises, and
    so does validating a frame with no rows.  The base operator keeps its
    keyword arguments and wants a [task_id] among them. *)
Definition Files : Type := gmap string Frame.

Definition base_operator_init (kwargs : pydict) : exn + pydict :=
  match getitem kwargs "task_id" with
  | Some _ => inr kwargs
  | None => inl (Exception "AirflowException" "missing task_id")
  end.

Definition read_frame (path options_json : string) : M Files Frame :=
  λ files,
    match files !! path with
    | Some df => (files, inr df)
    | None => (files, inl (Exception "FileNotFoundError" path))
    end.

Definition validate_frame (df : Frame) (against_json : string) : M Files PyVal :=
  match df with
  | [] => raise (Exception "ValidationError" against_json)
  | _ :: _ => ret PyNone
  end.

End Samples.

(** ** Notions the properties are stated with *)

Import BaseStatement.

(** The exception is a [ValueError], whatever its message. *)
Definition is_ValueError (e : exn) : Prop := ∃ message, e = ValueError message.

(** The lists a message shows, in the order it shows them. *)
Definition shown_lists (message : list fragment) : list (list string) :=
  omap (λ part, match part with FmtList l => Some l | _ => None end) message.

(** A message names [k] when one of the lists it shows holds [k]. *)
Definition names (message : list fragment) (k : string) : Prop :=
  ∃ l, l ∈ shown_lists message ∧ k ∈ l.



(** A computation that assigns nothing: it ends in the state it began in,
    whether it returns or raises. *)
Definition read_only {S A} (m : M S A) : Prop := ∀ σ, (m σ).1 = σ.

(** [{k: v for k, v in d.items() if k not in ks}] *)
Definition without (ks : list string) (d : pydict) : pydict :=
  filter (λ item, item.1 ∉ ks) d.

(** [cls(options)(df)]: construct the statement, then evaluate it. *)
Definition construct_and_evaluate {DataFrame} (cls : StatementClass DataFrame)
    (options : pydict) (df : DataFrame) : exn + PyVal :=
  match construct cls options with
  | inl e => inl e
  | inr self => (__call__ cls df self).2
  end.

(** ** Option validation *)

Section Validation.

Context {DataFrame : Type}.
Implicit Types (cls : StatementClass DataFrame) (options : pydict).
Implicit Types (self : gmap string PyVal) (k : string).

Lemma elem_of_unexpected_parameters cls options k :
  k ∈ unexpected_parameters cls options
  ↔ k ∈ keys options ∧ k ∉ accepted_parameters cls.
Proof.
  unfold unexpected_parameters. rewrite list_elem_of_filter. tauto.
Qed.

Lemma unexpected_parameters_nil cls options :
  unexpected_parameters cls options = []
  ↔ ∀ k, k ∈ keys options → k ∈ accepted_parameters cls.
Proof.
  split.
  - intros Hnil k Hk.
    destruct (decide (k ∈ accepted_parameters cls)) as [|Hout]; [done|].
    exfalso. eapply (not_elem_of_nil k). rewrite <- Hnil.
    by apply elem_of_unexpected_parameters.
  - intros Hall. apply elem_of_nil_inv. intros k Hk.
    apply elem_of_unexpected_parameters in Hk as [Hin Hout].
    by apply Hout, Hall.
Qed.

Lemma unexpected_parameters_cons cls options :
  unexpected_parameters cls options ≠ []
  ↔ ∃ k, k ∈ keys options ∧ k ∉ accepted_parameters cls.
Proof.
  split.
  - intros Hne. destruct (unexpected_parameters cls options) as [|k u] eqn:E;
      [done|].
    exists k. apply elem_of_unexpected_parameters. rewrite E. left.
  - intros (k & Hin & Hout) Hnil.
    rewrite unexpected_parameters_nil in Hnil. by apply Hout, Hnil.
Qed.

(** The two ways [_validate_options] ends; it never touches the instance. *)
Lemma validate_options_returns cls options self :
  unexpected_parameters cls options = [] →
  _validate_options cls options self = (self, inr ()).
Proof. unfold _validate_options. by intros ->. Qed.

Lemma validate_options_raises cls options self :
  unexpected_parameters cls options ≠ [] →
  _validate_options cls options self =
    (self, inl (ValueError (invalid_parameters_message cls
                              (unexpected_parameters cls options)))).
Proof.
  unfold _validate_options.
  by destruct (unexpected_parameters cls options).
Qed.

Lemma init_returns cls options self :
  unexpected_parameters cls options = [] →
  __init__ cls options self = (<["options" := PyDict options]> self, inr ()).
Proof.
  intros Hnil. unfold __init__, bind.
  by rewrite validate_options_returns.
Qed.

Lemma init_raises cls options self :
  unexpected_parameters cls options ≠ [] →
  __init__ cls options self =
    (self, inl (ValueError (invalid_parameters_message cls
                              (unexpected_parameters cls options)))).
Proof.
  intros Hne. unfold __init__, bind.
  by rewrite validate_options_raises.
Qed.

Lemma construct_returns cls options :
  unexpected_parameters cls options = [] →
  construct cls options = inr {[ "options" := PyDict options ]}.
Proof. intros Hnil. unfold construct. by rewrite init_returns. Qed.

Lemma construct_raises cls options :
  unexpected_parameters cls options ≠ [] →
  construct cls options =
    inl (ValueError (invalid_parameters_message cls
                       (unexpected_parameters cls options))).
Proof. intros Hne. unfold construct. by rewrite init_raises. Qed.

(** C1: for every statement class and every options mapping, constructing
    the statement succeeds exactly when every key of the mapping is among the
    class's expected parameters or the base names [type], [severity],
    [location]; and a key outside them makes construction fail with the
    configuration error, which the source raises as a [ValueError]. *)
Theorem construct_succeeds_iff_options_accepted cls options :
  ((∃ self, construct cls options = inr self)
   ↔ ∀ k, k ∈ keys options →
          k ∈ expected_parameters cls ∨ k ∈ ["type"; "severity"; "location"])
  ∧ ((∃ k, k ∈ keys options ∧
           ¬ (k ∈ expected_parameters cls ∨
              k ∈ ["type"; "severity"; "location"]))
     ↔ ∃ e, construct cls options = inl e ∧ is_ValueError e).
Proof.
  assert (Hacc : ∀ k, k ∈ accepted_parameters cls
                      ↔ k ∈ expected_parameters cls ∨
                        k ∈ ["type"; "severity"; "location"]).
  { intros k. unfold accepted_parameters. by rewrite elem_of_app. }
  destruct (decide (unexpected_parameters cls options = [])) as [Hnil|Hne].
  - rewrite (construct_returns _ _ Hnil).
    rewrite unexpected_parameters_nil in Hnil. split; split.
    + intros _ k Hk. by apply Hacc, Hnil.
    + eauto.
    + intros (k & Hk & Hout). exfalso. by apply Hout, Hacc, Hnil.
    + by intros (e & [=] & _).
  - rewrite (construct_raises _ _ Hne).
    rewrite unexpected_parameters_cons in Hne.
    destruct Hne as (k & Hk & Hout). split; split.
    + by intros [self [=]].
    + intros Hall. exfalso. by apply Hout, Hacc, Hall.
    + intros _. eexists. split; [done|]. by eexists.
    + intros _. exists k. split; [done|]. by rewrite <- Hacc.
Qed.

(** What a failed construction lists: the error is a [ValueError] whose
    message is built on the list of exactly the unrecognized keys, each as
    often and in the order the mapping has it. *)
Lemma construct_error_lists_unexpected cls options e :
  construct cls options = inl e →
  ∃ unexpected,
    e = ValueError (invalid_parameters_message cls unexpected)
    ∧ (∀ k, k ∈ unexpected
            ↔ k ∈ keys options ∧
              ¬ (k ∈ expected_parameters cls ∨
                 k ∈ ["type"; "severity"; "location"]))
    ∧ unexpected `sublist_of` keys options.
Proof.
  intros Hfail.
  destruct (decide (unexpected_parameters cls options = [])) as [Hnil|Hne].
  { by rewrite (construct_returns _ _ Hnil) in Hfail. }
  rewrite (construct_raises _ _ Hne) in Hfail. injection Hfail as <-.
  exists (unexpected_parameters cls options). split_and!.
  - done.
  - intros k. rewrite elem_of_unexpected_parameters.
    unfold accepted_parameters. by rewrite elem_of_app.
  - apply sublist_filter.
Qed.

(** C6, as amended: construction does not look for missing options.  For a
    class with an expected parameter [p] and a mapping without [p],
    construction fails only when the mapping has an unrecognized key, and
    otherwise returns the instance with the mapping stored as given. *)
Theorem construct_ignores_missing_options cls options p :
  p ∈ expected_parameters cls →
  p ∉ keys options →
  ((∃ e, construct cls options = inl e)
   ↔ ∃ k, k ∈ keys options ∧ k ∉ accepted_parameters cls)
  ∧ ((∀ k, k ∈ keys options → k ∈ accepted_parameters cls) →
     construct cls options = inr {[ "options" := PyDict options ]}).
Proof.
  intros _ _. split.
  - rewrite <- unexpected_parameters_cons.
    destruct (decide (unexpected_parameters cls options = [])) as [Hnil|Hne].
    + rewrite (construct_returns _ _ Hnil). split; [by intros [e [=]]|done].
    + rewrite (construct_raises _ _ Hne). split; [done|eauto].
  - intros Hall. by apply construct_returns, unexpected_parameters_nil.
Qed.

(** C8: [__init__] assigns [options] all or nothing.  When validation raises,
    [__init__] raises the same exception and leaves the instance's attributes
    as they were; when validation returns, [__init__] returns having set
    [options] to the mapping it was given, and changed nothing else. *)
Theorem init_assigns_options_atomically cls options self :
  match _validate_options cls options self with
  | (_, inl e) =>
      __init__ cls options self = (self, inl e)
  | (_, inr _) =>
      ∃ self', __init__ cls options self = (self', inr ())
               ∧ self' !! "options" = Some (PyDict options)
               ∧ ∀ a, a ≠ "options" → self' !! a = self !! a
  end.
Proof.
  destruct (decide (unexpected_parameters cls options = [])) as [Hnil|Hne].
  - rewrite (validate_options_returns _ _ _ Hnil), (init_returns _ _ _ Hnil).
    eexists. split_and!; [done| |].
    + apply lookup_insert_eq.
    + intros a Ha. by apply lookup_insert_ne.
  - by rewrite (validate_options_raises _ _ _ Hne), (init_raises _ _ _ Hne).
Qed.

End Validation.

(** ** Evaluation *)

Section Evaluation.

Context {DataFrame : Type}.
Implicit Types (cls : StatementClass DataFrame) (df : DataFrame).
Implicit Types (self : gmap string PyVal) (r : pydict) (b : bool).

(** The mapping [__call__] builds. *)
Lemma final_report_shape r b final_report :
  final_report = [("detail", PyDict r); ("result", PyBool b)]
  ↔ keys final_report = ["detail"; "result"]
    ∧ getitem final_report "detail" = Some (PyDict r)
    ∧ getitem final_report "result" = Some (PyBool b).
Proof.
  split; [by intros ->|].
  intros (Hkeys & Hdetail & Hresult).
  destruct final_report as [|[k1 v1] [|[k2 v2] [|]]]; try done.
  injection Hkeys as -> ->. simpl in Hdetail, Hresult.
  by injection Hdetail as ->; injection Hresult as ->.
Qed.

(** [__call__] in terms of what its two phases do. *)
Lemma call_phases cls df self self1 self2 r b :
  report cls df self = (self1, inr r) →
  result cls r self1 = (self2, inr b) →
  __call__ cls df self =
    (self2, inr (PyDict [("detail", PyDict r); ("result", PyBool b)])).
Proof.
  intros Hr Hb. unfold __call__, bind. by rewrite Hr, Hb.
Qed.

Lemma call_report_raises cls df self self1 e :
  report cls df self = (self1, inl e) →
  __call__ cls df self = (self1, inl e).
Proof. intros Hr. unfold __call__, bind. by rewrite Hr. Qed.

Lemma call_result_raises cls df self self1 self2 r e :
  report cls df self = (self1, inr r) →
  result cls r self1 = (self2, inl e) →
  __call__ cls df self = (self2, inl e).
Proof. intros Hr Hb. unfold __call__, bind. by rewrite Hr, Hb. Qed.

Lemma call_returns_inv cls df self self' v :
  __call__ cls df self = (self', inr v) →
  ∃ self1 r b,
    report cls df self = (self1, inr r)
    ∧ result cls r self1 = (self', inr b)
    ∧ v = PyDict [("detail", PyDict r); ("result", PyBool b)].
Proof.
  unfold __call__, bind, ret.
  destruct (report cls df self) as [self1 [e|r]]; [done|].
  destruct (result cls r self1) as [self2 [e|b]] eqn:Hb; [done|].
  intros [= <- <-]. by exists self1, r, b.
Qed.


(** C3, as amended: evaluating a statement on a slice returns exactly when
    the report phase returns on the slice and the result phase returns on
    that report.  What it returns is then a mapping whose keys are [detail]
    and [result] and no other, with that report and that boolean.  When a
    phase raises, evaluation raises the same exception. *)
Theorem call_returns_iff_phases_return cls df self self' v :
  (__call__ cls df self = (self', inr v)
   ↔ ∃ self1 r b final_report,
       report cls df self = (self1, inr r)
       ∧ result cls r self1 = (self', inr b)
       ∧ v = PyDict final_report
       ∧ keys final_report = ["detail"; "result"]
       ∧ getitem final_report "detail" = Some (PyDict r)
       ∧ getitem final_report "result" = Some (PyBool b))
  ∧ (∀ e, __call__ cls df self = (self', inl e)
          ↔ report cls df self = (self', inl e)
            ∨ ∃ self1 r, report cls df self = (self1, inr r)
                         ∧ result cls r self1 = (self', inl e)).
Proof.
  split.
  - split.
    + intros Hcall.
      destruct (call_returns_inv _ _ _ _ _ Hcall) as (self1 & r & b & Hr & Hb & ->).
      exists self1, r, b. eexists. split_and!; done.
    + intros (self1 & r & b & final & Hr & Hb & -> & Hshape).
      apply final_report_shape in Hshape as ->.
      by apply (call_phases _ _ _ self1).
  - intros e. split.
    + unfold __call__, bind, ret.
      destruct (report cls df self) as [self1 [e1|r]]; [intros [= <- <-]; by left|].
      destruct (result cls r self1) as [self2 [e2|b]] eqn:Hb; [|done].
      intros [= <- <-]. right. by exists self1, r.
    + intros [Hr|(self1 & r & Hr & Hb)].
      * by apply call_report_raises.
      * by apply (call_result_raises _ _ _ self1 _ r).
Qed.


(** C5: a class that does not define [profile] has [BaseStatement]'s, which
    raises [NotImplementedError] on every sample; and so does
    [BaseStatement] itself. *)
Theorem profile_not_implemented cls :
  own_profile cls = None →
  (∀ df, profile cls df = inl NotImplementedError)
  ∧ (∀ df, profile (@BaseStatement DataFrame) df = inl NotImplementedError).
Proof.
  intros Hown. split; intros df.
  - unfold profile. by rewrite Hown.
  - done.
Qed.

(** With phases that assign nothing, [__call__] assigns nothing; the phases
    of [BaseStatement] are such. *)
Lemma call_read_only cls df :
  read_only (report cls df) →
  (∀ r, read_only (result cls r)) →
  read_only (__call__ cls df).
Proof.
  intros Hreport Hresult self. unfold __call__, bind, ret.
  specialize (Hreport self).
  destruct (report cls df self) as [self1 [e|r]]; simpl in *; [done|].
  subst self1. specialize (Hresult r self).
  by destruct (result cls r self) as [self2 [e|b]].
Qed.

Lemma base_phases_read_only df r :
  read_only (report (@BaseStatement DataFrame) df)
  ∧ read_only (result (@BaseStatement DataFrame) r).
Proof. by split; intros self. Qed.


(** C9: the base statement passes on everything.  On every slice its report
    phase returns the empty mapping, on every report its result phase returns
    true, and evaluating it returns [detail] empty and [result] true. *)
Theorem base_statement_passes df self :
  report (@BaseStatement DataFrame) df self = (self, inr [])
  ∧ (∀ r, result (@BaseStatement DataFrame) r self = (self, inr true))
  ∧ __call__ (@BaseStatement DataFrame) df self =
      (self, inr (PyDict [("detail", PyDict []); ("result", PyBool true)])).
Proof. split_and!; [done| |]; [by intros r|]. by apply (call_phases _ _ _ self). Qed.

End Evaluation.

(** ** The Airflow operator *)

Section OperatorFacts.

Context {DataFrame World BaseOperator : Type}.
Context (BaseOperator__init__ : pydict → exn + BaseOperator).
Context (data_reader : string → string → M World DataFrame).
Context (validate : DataFrame → string → M World PyVal).
Implicit Types (self : DeirokayOperator.DeirokayOperator BaseOperator).

Lemma operator_init_fields path options_json assertions_json save_json kwargs
    self :
  DeirokayOperator.__init__ BaseOperator__init__
    path options_json assertions_json save_json kwargs = inr self →
  DeirokayOperator.path_to_file self = path
  ∧ DeirokayOperator.deirokay_options_json self = options_json
  ∧ DeirokayOperator.deirokay_assertions_json self = assertions_json.
Proof.
  unfold DeirokayOperator.__init__.
  destruct (BaseOperator__init__ kwargs); [done|].
  by intros [= <-].
Qed.

Lemma execute_returns_own_path self context world world' value :
  DeirokayOperator.execute data_reader validate self context world
    = (world', inr value) →
  value = DeirokayOperator.path_to_file self.
Proof.
  unfold DeirokayOperator.execute, bind, ret.
  destruct (data_reader _ _ world) as [world1 [e|df]]; [done|].
  destruct (validate df _ world1) as [world2 [e|checked]]; [done|].
  by intros [= _ <-].
Qed.

(** C10: an operator constructed with a path returns that path from
    [execute], and [save_json] has no effect.  The operator constructed is
    the same whatever [save_json] is given, so nothing of it is stored and
    [execute] cannot use it; whatever [execute] returns is the path given to
    the constructor; and it does return it when reading and validating both
    return. *)
Theorem execute_returns_path_and_ignores_save_json
    path options_json assertions_json save_json kwargs self :
  DeirokayOperator.__init__ BaseOperator__init__
    path options_json assertions_json save_json kwargs = inr self →
  (∀ save_json',
     DeirokayOperator.__init__ BaseOperator__init__
       path options_json assertions_json save_json' kwargs = inr self)
  ∧ (∀ context world world' value,
       DeirokayOperator.execute data_reader validate self context world
         = (world', inr value) →
       value = path)
  ∧ (∀ context world world1 world2 df checked,
       data_reader path options_json world = (world1, inr df) →
       validate df assertions_json world1 = (world2, inr checked) →
       DeirokayOperator.execute data_reader validate self context world
         = (world2, inr path)).
Proof.
  intros Hinit.
  destruct (operator_init_fields _ _ _ _ _ _ Hinit) as (Hp & Ho & Ha).
  split_and!.
  - intros save_json'. exact Hinit.
  - intros context world world' value Hexec.
    apply execute_returns_own_path in Hexec. congruence.
  - intros context world world1 world2 df checked Hread Hvalid.
    unfold DeirokayOperator.execute, bind, ret.
    by rewrite Hp, Ho, Ha, Hread, Hvalid.
Qed.

End OperatorFacts.

(** ** Runs on the sample class and the sample operator *)

Import Samples.

(** The message of the failed construction below. *)
Lemma row_count_rejects_maximum :
  construct RowCount [("maximum", PyInt 3)] =
    inl (ValueError
           [ Lit "Invalid parameters passed to "; FmtStr "RowCount";
             Lit " statement: "; FmtList ["maximum"];
             Lit (newline +:+ "The valid parameters are: ");
             FmtList ["min"; "max"] ]).
Proof. reflexivity. Qed.

(** C2: where the code leaves the claim.  [RowCount] accepts the option
    [type], as the check of [_validate_options] has it, yet the error raised
    for the unrecognized [maximum] shows, as the valid parameters, the list
    [min, max] only: the unrecognized key is named, the accepted set is
    not. *)
Theorem invalid_parameters_message_omits_base_names :
  ∃ message,
    construct RowCount [("maximum", PyInt 3)] = inl (ValueError message)
    ∧ shown_lists message = [["maximum"]; ["min"; "max"]]
    ∧ "type" ∈ accepted_parameters RowCount
    ∧ (∃ self, construct RowCount [("type", PyStr "row_count")] = inr self)
    ∧ ¬ names message "type".
Proof.
  eexists. split_and!.
  - exact row_count_rejects_maximum.
  - reflexivity.
  - unfold accepted_parameters. simpl. do 2 right. left.
  - by eexists.
  - intros (l & Hl & Hk). simpl in Hl.
    apply elem_of_cons in Hl as [->|Hl].
    + apply list_elem_of_singleton in Hk. discriminate Hk.
    + apply list_elem_of_singleton in Hl as ->.
      apply elem_of_cons in Hk as [Hk|Hk]; [discriminate Hk|].
      apply list_elem_of_singleton in Hk. discriminate Hk.
Qed.

(** The error of [RowCount] for a mapping with two unrecognized keys around
    an expected one. *)
Example row_count_lists_unexpected_in_order :
  construct RowCount [("maximum", PyInt 3); ("min", PyInt 1); ("bogus", PyNone)]
    = inl (ValueError
             (invalid_parameters_message RowCount ["maximum"; "bogus"])).
Proof. reflexivity. Qed.

(** C6, as stated, fails: [RowCount] expects [min], and constructing it from
    a mapping without [min] returns the instance. *)
Lemma missing_option_constructs_counterexample :
  "min" ∈ expected_parameters RowCount
  ∧ ("min" ∉ keys [("type", PyStr "row_count")])
  ∧ construct RowCount [("type", PyStr "row_count")]
      = inr {[ "options" := PyDict [("type", PyStr "row_count")] ]}.
Proof.
  split_and!.
  - simpl. left.
  - simpl. intros H. apply list_elem_of_singleton in H. discriminate H.
  - reflexivity.
Qed.

(** [RowCount] constructed from a mapping that has [max] but not [min]. *)
Lemma construct_ignores_missing_options_witness :
  "min" ∈ expected_parameters RowCount
  ∧ ("min" ∉ keys [("max", PyInt 9)])
  ∧ ((∃ e, construct RowCount [("max", PyInt 9)] = inl e)
     ↔ ∃ k, k ∈ keys [("max", PyInt 9)] ∧ k ∉ accepted_parameters RowCount)
  ∧ ((∀ k, k ∈ keys [("max", PyInt 9)] → k ∈ accepted_parameters RowCount) →
     construct RowCount [("max", PyInt 9)]
       = inr {[ "options" := PyDict [("max", PyInt 9)] ]}).
Proof.
  assert (Hin : "min" ∈ expected_parameters RowCount) by (simpl; left).
  assert (Hout : "min" ∉ keys [("max", PyInt 9)]).
  { simpl. intros H. apply list_elem_of_singleton in H. discriminate H. }
  split; [exact Hin|]. split; [exact Hout|].
  exact (construct_ignores_missing_options RowCount [("max", PyInt 9)] "min"
           Hin Hout).
Defined.

(** C3, as stated, fails: [StrictMin] constructs from the empty mapping, and
    evaluating the instance raises the [KeyError] of its report phase; it
    returns no mapping. *)
Lemma call_raises_counterexample :
  let df : Frame := [[PyInt 1]] in
  let self : gmap string PyVal := {[ "options" := PyDict [] ]} in
  construct StrictMin [] = inr self
  ∧ __call__ StrictMin df self = (self, inl (Exception "KeyError" "min"))
  ∧ ¬ ∃ self' v, __call__ StrictMin df self = (self', inr v).
Proof.
  intros df self. split_and!.
  - reflexivity.
  - reflexivity.
  - by intros (self' & v & [=]).
Qed.





(** Profiling [RowCount], which defines no [profile]. *)
Lemma profile_not_implemented_witness :
  own_profile RowCount = None
  ∧ (∀ df, profile RowCount df = inl NotImplementedError)
  ∧ (∀ df : Frame, profile BaseStatement df = inl NotImplementedError).
Proof.
  split; [reflexivity|].
  apply (profile_not_implemented RowCount). reflexivity.
Defined.

(** The sample operator, constructed with a [save_json]. *)
Lemma execute_returns_path_and_ignores_save_json_witness :
  let kwargs : pydict := [("task_id", PyStr "check_sales")] in
  let self :=
    {| DeirokayOperator.base := kwargs;
       DeirokayOperator.path_to_file := "sales.csv";
       DeirokayOperator.deirokay_options_json := "options.json";
       DeirokayOperator.deirokay_assertions_json := "assertions.json" |} in
  DeirokayOperator.__init__ base_operator_init
    "sales.csv" "options.json" "assertions.json" (Some "report.json") kwargs
    = inr self
  ∧ (∀ save_json',
       DeirokayOperator.__init__ base_operator_init
         "sales.csv" "options.json" "assertions.json" save_json' kwargs
         = inr self)
  ∧ (∀ context world world' value,
       DeirokayOperator.execute read_frame validate_frame self context world
         = (world', inr value) →
       value = "sales.csv")
  ∧ (∀ context world world1 world2 df checked,
       read_frame "sales.csv" "options.json" world = (world1, inr df) →
       validate_frame df "assertions.json" world1 = (world2, inr checked) →
       DeirokayOperator.execute read_frame validate_frame self context world
         = (world2, inr "sales.csv")).
Proof.
  intros kwargs self.
  split; [reflexivity|].
  apply (execute_returns_path_and_ignores_save_json base_operator_init
           read_frame validate_frame
           "sales.csv" "options.json" "assertions.json" (Some "report.json")
           kwargs self).
  reflexivity.
Defined.

(** The sample operator on a world with the file, and on one without. *)
Example execute_on_present_file :
  let self :=
    {| DeirokayOperator.base := ([] : pydict);
       DeirokayOperator.path_to_file := "sales.csv";
       DeirokayOperator.deirokay_options_json := "options.json";
       DeirokayOperator.deirokay_assertions_json := "assertions.json" |} in
  let world : Files := {[ "sales.csv" := [[PyInt 1]] ]} in
  DeirokayOperator.execute read_frame validate_frame self PyNone world
    = (world, inr "sales.csv").
Proof. reflexivity. Qed.

Example execute_on_missing_file :
  let self :=
    {| DeirokayOperator.base := ([] : pydict);
       DeirokayOperator.path_to_file := "sales.csv";
       DeirokayOperator.deirokay_options_json := "options.json";
       DeirokayOperator.deirokay_assertions_json := "assertions.json" |} in
  DeirokayOperator.execute read_frame validate_frame self PyNone (∅ : Files)
    = (∅, inl (Exception "FileNotFoundError" "sales.csv")).
Proof. reflexivity. Qed.

(** [RowCount] on two rows, wanting at least two and at least three. *)
Example row_count_passes :
  __call__ RowCount [[PyInt 1]; [PyInt 2]]
    {[ "options" := PyDict [("min", PyInt 2)] ]}
  = ({[ "options" := PyDict [("min", PyInt 2)] ]},
     inr (PyDict [ ("detail", PyDict [("rows", PyInt 2)]);
                   ("result", PyBool true) ])).
Proof. reflexivity. Qed.

Example row_count_fails :
  __call__ RowCount [[PyInt 1]; [PyInt 2]]
    {[ "options" := PyDict [("min", PyInt 3)] ]}
  = ({[ "options" := PyDict [("min", PyInt 3)] ]},
     inr (PyDict [ ("detail", PyDict [("rows", PyInt 2)]);
                   ("result", PyBool false) ])).
Proof. reflexivity. Qed.

(** ** More on option validation

    What [_validate_options] does with the keys of a mapping, whatever the
    class: it looks at keys only, lists every offending key, and treats the
    mapping key by key. *)

Section KeyWise.

Context {DataFrame : Type}.
Implicit Types (cls : StatementClass DataFrame) (options : pydict).
Implicit Types (k : string) (ks : list string).

Lemma filter_iff_on {A} (P1 P2 : A → Prop)
    `{!∀ x, Decision (P1 x), !∀ x, Decision (P2 x)} (l : list A) :
  (∀ x, x ∈ l → P1 x ↔ P2 x) →
  filter P1 l = filter P2 l.
Proof.
  induction l as [|a l IH]; [done|]. intros Hiff.
  assert (Hl : filter P1 l = filter P2 l).
  { apply IH. intros x Hx. apply Hiff. by right. }
  assert (Ha : P1 a ↔ P2 a) by (apply Hiff; left).
  destruct (decide (P1 a)) as [H1|H1].
  - rewrite !filter_cons_True by tauto. by rewrite Hl.
  - rewrite !filter_cons_False by tauto. done.
Qed.

Lemma keys_filter (P : string → Prop) `{!∀ k, Decision (P k)} options :
  keys (filter (λ item, P item.1) options) = filter P (keys options).
Proof.
  unfold keys. induction options as [|[k v] options IH]; [done|].
  destruct (decide (P k)) as [Hk|Hk].
  - rewrite filter_cons_True by done. rewrite !fmap_cons. simpl.
    rewrite filter_cons_True by done. by rewrite IH.
  - rewrite filter_cons_False by done. rewrite fmap_cons. simpl.
    rewrite filter_cons_False by done. by rewrite IH.
Qed.

Lemma keys_without ks options :
  keys (without ks options) = filter (λ k, k ∉ ks) (keys options).
Proof. exact (keys_filter (λ k, k ∉ ks) options). Qed.

Lemma elem_of_keys_without ks options k :
  k ∈ keys (without ks options) ↔ k ∈ keys options ∧ k ∉ ks.
Proof. rewrite keys_without, list_elem_of_filter. tauto. Qed.

Lemma elem_of_keys_item options k (v : PyVal) :
  (k, v) ∈ options → k ∈ keys options.
Proof.
  intros Hin. unfold keys. apply list_elem_of_fmap. by exists (k, v).
Qed.

(** Which sets of keys, once dropped, leave nothing to complain about. *)
Lemma unexpected_parameters_without_nil cls options ks :
  unexpected_parameters cls (without ks options) = []
  ↔ ∀ k, k ∈ unexpected_parameters cls options → k ∈ ks.
Proof.
  rewrite unexpected_parameters_nil. split.
  - intros Hall k Hk.
    apply elem_of_unexpected_parameters in Hk as [Hin Hout].
    destruct (decide (k ∈ ks)) as [|Hks]; [done|].
    exfalso. apply Hout, Hall. by apply elem_of_keys_without.
  - intros Hcover k Hk. apply elem_of_keys_without in Hk as [Hin Hks].
    destruct (decide (k ∈ accepted_parameters cls)) as [|Hout]; [done|].
    exfalso. apply Hks, Hcover. by apply elem_of_unexpected_parameters.
Qed.

Lemma without_unexpected_parameters cls options :
  without (unexpected_parameters cls options) options
  = filter (λ item, item.1 ∈ accepted_parameters cls) options.
Proof.
  unfold without. apply filter_iff_on. intros [k v] Hitem. simpl.
  rewrite elem_of_unexpected_parameters.
  pose proof (elem_of_keys_item _ _ _ Hitem) as Hk. split.
  - intros Hnot. destruct (decide (k ∈ accepted_parameters cls)); [done|].
    exfalso. by apply Hnot.
  - intros Hacc [_ Hout]. by apply Hout.
Qed.

(** Construction returns exactly when nothing is unexpected. *)
Lemma construct_returns_iff cls options :
  (∃ self, construct cls options = inr self)
  ↔ unexpected_parameters cls options = [].
Proof.
  split.
  - intros [self Hself].
    destruct (decide (unexpected_parameters cls options = [])) as [|Hne];
      [done|].
    by rewrite (construct_raises _ _ Hne) in Hself.
  - intros Hnil. rewrite (construct_returns _ _ Hnil). eauto.
Qed.

(** X1: the error lists every offending key, so one round of repair is
    enough.  Dropping a set of keys from a mapping makes it construct exactly
    when the set holds every key [_validate_options] lists; in particular
    dropping the listed keys themselves does, and what is stored is then the
    accepted items of the mapping, in their order. *)
Theorem dropping_listed_keys_repairs cls options :
  (∀ ks, (∃ self, construct cls (without ks options) = inr self)
         ↔ ∀ k, k ∈ unexpected_parameters cls options → k ∈ ks)
  ∧ construct cls (without (unexpected_parameters cls options) options)
    = inr {[ "options" :=
               PyDict (filter (λ item, item.1 ∈ accepted_parameters cls)
                         options) ]}.
Proof.
  split.
  - intros ks.
    by rewrite construct_returns_iff, unexpected_parameters_without_nil.
  - rewrite construct_returns
      by (by apply unexpected_parameters_without_nil).
    by rewrite without_unexpected_parameters.
Qed.

(** X2: acceptance is by key and goes down to smaller mappings.  If every
    key of [options'] is a key of [options], whatever the values, then every
    key listed for [options'] is listed for [options]; so when [options]
    constructs, [options'] does, and it is stored as given. *)
Theorem construct_of_fewer_keys cls options options' :
  (∀ k, k ∈ keys options' → k ∈ keys options) →
  (∀ k, k ∈ unexpected_parameters cls options' →
        k ∈ unexpected_parameters cls options)
  ∧ ((∃ self, construct cls options = inr self) →
     construct cls options' = inr {[ "options" := PyDict options' ]}).
Proof.
  intros Hsub.
  assert (Hlisted : ∀ k, k ∈ unexpected_parameters cls options' →
                         k ∈ unexpected_parameters cls options).
  { intros k. rewrite !elem_of_unexpected_parameters.
    intros [Hin Hout]. split; [by apply Hsub|done]. }
  split; [exact Hlisted|].
  rewrite construct_returns_iff. intros Hnil.
  apply construct_returns, elem_of_nil_inv. intros k Hk.
  apply Hlisted in Hk. rewrite Hnil in Hk. by apply not_elem_of_nil in Hk.
Qed.

(** X3: a class that accepts more names accepts more mappings.  If every
    expected parameter of [cls] is accepted by [cls'], then what is listed
    for [cls'] is a sublist of what is listed for [cls], and every mapping
    that constructs [cls] constructs [cls']; the order of a class's
    [expected_parameters] and its repetitions play no part. *)
Theorem construct_of_wider_class cls cls' options :
  (∀ k, k ∈ expected_parameters cls → k ∈ accepted_parameters cls') →
  unexpected_parameters cls' options
    `sublist_of` unexpected_parameters cls options
  ∧ ((∃ self, construct cls options = inr self) →
     construct cls' options = inr {[ "options" := PyDict options ]}).
Proof.
  intros Hwider.
  assert (Hacc : ∀ k, k ∈ accepted_parameters cls →
                      k ∈ accepted_parameters cls').
  { intros k. unfold accepted_parameters at 1. rewrite elem_of_app.
    intros [Hk|Hk]; [by apply Hwider|].
    unfold accepted_parameters. apply elem_of_app. by right. }
  assert (Hsub : unexpected_parameters cls' options
                   `sublist_of` unexpected_parameters cls options).
  { unfold unexpected_parameters.
    induction (keys options) as [|k ks IH]; [done|].
    destruct (decide (k ∈ accepted_parameters cls)) as [Hk|Hk].
    - rewrite (filter_cons_False _ k ks) by (intros Hout; apply Hout; auto).
      rewrite (filter_cons_False _ k ks) by (intros Hout; by apply Hout).
      exact IH.
    - rewrite (filter_cons_True (λ o, o ∉ accepted_parameters cls)) by done.
      destruct (decide (k ∈ accepted_parameters cls')) as [Hk'|Hk'].
      + rewrite filter_cons_False by (intros Hout; by apply Hout).
        by apply sublist_cons.
      + rewrite filter_cons_True by done. by apply sublist_skip. }
  split; [exact Hsub|].
  rewrite construct_returns_iff. intros Hnil.
  apply construct_returns. rewrite Hnil in Hsub.
  by apply sublist_nil_r in Hsub.
Qed.

(** X4: the order of a mapping's keys shows in the order of the listed keys
    and in nothing else.  Two mappings whose keys are a rearrangement of one
    another have lists that are a rearrangement of one another, and one
    constructs exactly when the other does. *)
Theorem construct_of_rearranged_keys cls options options' :
  keys options ≡ₚ keys options' →
  unexpected_parameters cls options ≡ₚ unexpected_parameters cls options'
  ∧ ((∃ self, construct cls options = inr self)
     ↔ ∃ self, construct cls options' = inr self).
Proof.
  intros Hperm.
  assert (Hlisted : unexpected_parameters cls options
                      ≡ₚ unexpected_parameters cls options').
  { unfold unexpected_parameters. by rewrite Hperm. }
  split; [exact Hlisted|].
  rewrite !construct_returns_iff. split; intros Hnil.
  - rewrite Hnil in Hlisted. by apply Permutation_nil_l in Hlisted.
  - rewrite Hnil in Hlisted. by apply Permutation_nil_r in Hlisted.
Qed.

(** X5: for a mapping with distinct keys, as every [dict] has, the listed
    keys are exactly the keys of the mapping that are not accepted, each
    listed once; and the listed keys followed by the keys of the accepted
    items are the mapping's keys rearranged, without repetition: every key
    is either reported or accepted, and none is both. *)
Theorem listed_keys_distinct cls options :
  NoDup (keys options) →
  NoDup (unexpected_parameters cls options)
  ∧ (∀ k, k ∈ unexpected_parameters cls options
          ↔ k ∈ keys options ∧ k ∉ accepted_parameters cls)
  ∧ unexpected_parameters cls options
      ++ keys (filter (λ item, item.1 ∈ accepted_parameters cls) options)
    ≡ₚ keys options
  ∧ NoDup (unexpected_parameters cls options
             ++ keys (filter (λ item, item.1 ∈ accepted_parameters cls)
                        options)).
Proof.
  intros Hnodup.
  assert (Hsplit : unexpected_parameters cls options
      ++ keys (filter (λ item, item.1 ∈ accepted_parameters cls) options)
    ≡ₚ keys options).
  { assert (Hkeys :
      keys (filter (λ item, item.1 ∈ accepted_parameters cls) options)
      = filter (λ k, k ∈ accepted_parameters cls) (keys options))
      by exact (keys_filter (λ k, k ∈ accepted_parameters cls) options).
    rewrite Hkeys. unfold unexpected_parameters.
    rewrite <- (filter_app_complement
                  (λ k, k ∉ accepted_parameters cls) (keys options)) at 3.
    f_equiv. apply reflexive_eq, list_filter_iff. intros k.
    destruct (decide (k ∈ accepted_parameters cls)); tauto. }
  split_and!.
  - unfold unexpected_parameters. by apply NoDup_filter.
  - apply elem_of_unexpected_parameters.
  - exact Hsplit.
  - by rewrite Hsplit.
Qed.

(** X6: when the error names the whole accepted set.  For a failed
    construction, every accepted name is named by the message exactly when
    the class's [expected_parameters] holds [type], [severity] and
    [location] already, as that of [BaseStatement] does and that of a
    subclass which does not declare the attribute. *)
Theorem error_names_accepted_set_iff cls options message :
  construct cls options = inl (ValueError message) →
  (∀ k, k ∈ accepted_parameters cls → names message k)
  ↔ (∀ k, k ∈ ["type"; "severity"; "location"] →
          k ∈ expected_parameters cls).
Proof.
  intros Hfail.
  destruct (decide (unexpected_parameters cls options = [])) as [Hnil|Hne].
  { by rewrite (construct_returns _ _ Hnil) in Hfail. }
  rewrite (construct_raises _ _ Hne) in Hfail. injection Hfail as <-.
  assert (Hnames : ∀ k, names (invalid_parameters_message cls
                                 (unexpected_parameters cls options)) k
                        ↔ k ∈ unexpected_parameters cls options
                          ∨ k ∈ expected_parameters cls).
  { intros k. unfold names, invalid_parameters_message, shown_lists. simpl.
    split.
    - intros (l & Hl & Hk).
      apply elem_of_cons in Hl as [->|Hl]; [by left|].
      apply list_elem_of_singleton in Hl as ->. by right.
    - intros [Hk|Hk]; eexists; (split; [|exact Hk]).
      + left.
      + right. left. }
  split.
  - intros Hall k Hk.
    assert (Hacc : k ∈ accepted_parameters cls).
    { unfold accepted_parameters. apply elem_of_app. by right. }
    destruct (proj1 (Hnames k) (Hall k Hacc)) as [Hun|]; [|done].
    apply elem_of_unexpected_parameters in Hun as [_ Hout]. by apply Hout in Hacc.
  - intros Hbase k Hk. apply Hnames. right.
    unfold accepted_parameters in Hk. apply elem_of_app in Hk as [|Hk];
      [done|by apply Hbase].
Qed.

End KeyWise.

(** ** Constructing, then evaluating *)

Section ConstructAndEvaluate.

Context {DataFrame : Type}.
Implicit Types (cls : StatementClass DataFrame) (options : pydict).
Implicit Types (df : DataFrame).

(** X7: the outcomes of [cls(options)(df)].  With an unexpected key it
    raises the [ValueError] of construction, on every frame and whatever the
    phases of the class are.  Otherwise it does what [__call__] does on the
    instance whose one attribute is [options], bound to the mapping given: it
    returns the mapping of [detail] and [result] exactly when both phases
    return, and raises what a phase raises. *)
Theorem construct_and_evaluate_outcomes cls options df :
  (unexpected_parameters cls options ≠ [] →
   ∀ df', construct_and_evaluate cls options df'
          = inl (ValueError (invalid_parameters_message cls
                               (unexpected_parameters cls options))))
  ∧ (∀ v, construct_and_evaluate cls options df = inr v
          ↔ unexpected_parameters cls options = []
            ∧ ∃ self1 self2 r b,
                report cls df {[ "options" := PyDict options ]}
                  = (self1, inr r)
                ∧ result cls r self1 = (self2, inr b)
                ∧ v = PyDict [("detail", PyDict r); ("result", PyBool b)])
  ∧ (∀ e, construct_and_evaluate cls options df = inl e
          ↔ (unexpected_parameters cls options ≠ []
             ∧ e = ValueError (invalid_parameters_message cls
                                 (unexpected_parameters cls options)))
            ∨ (unexpected_parameters cls options = []
               ∧ ∃ self',
                   __call__ cls df {[ "options" := PyDict options ]}
                     = (self', inl e))).
Proof.
  unfold construct_and_evaluate.
  destruct (decide (unexpected_parameters cls options = [])) as [Hnil|Hne].
  - rewrite (construct_returns _ _ Hnil). split_and!.
    + done.
    + intros v. split.
      * destruct (__call__ cls df {[ "options" := PyDict options ]})
          as [self2 out] eqn:Hcall.
        simpl. intros ->. split; [done|].
        destruct (call_returns_inv _ _ _ _ _ Hcall)
          as (self1 & r & b & Hr & Hb & ->).
        by exists self1, self2, r, b.
      * intros (_ & self1 & self2 & r & b & Hr & Hb & ->).
        by rewrite (call_phases _ _ _ _ _ _ _ Hr Hb).
    + intros e. split.
      * destruct (__call__ cls df {[ "options" := PyDict options ]})
          as [self2 out]. simpl. intros ->. right. split; [done|].
        by exists self2.
      * intros [[Hne _]|(_ & self' & Hcall)]; [done|]. by rewrite Hcall.
  - rewrite (construct_raises _ _ Hne). split_and!.
    + done.
    + intros v. split; [done|]. by intros [Hnil _].
    + intros e. split.
      * intros [= <-]. by left.
      * intros [[_ ->]|[Hnil _]]; done.
Qed.

End ConstructAndEvaluate.

(** ** More on the Airflow operator *)

Section OperatorGate.

Context {DataFrame World BaseOperator : Type}.
Context (BaseOperator__init__ : pydict → exn + BaseOperator).
Context (data_reader : string → string → M World DataFrame).
Context (validate : DataFrame → string → M World PyVal).
Implicit Types (self : DeirokayOperator.DeirokayOperator BaseOperator).

(** X8: [execute] returns only after reading and validating.  For an
    operator made by the constructor, [execute] returns a value exactly when
    [data_reader], on the constructor's path and options file, returns a
    frame, and [validate], on that frame and the constructor's assertions
    file, returns; the value is then the path, and the world is as
    [validate] left it. *)
Theorem execute_returns_iff_read_and_validated
    path options_json assertions_json save_json kwargs self
    context world world' value :
  DeirokayOperator.__init__ BaseOperator__init__
    path options_json assertions_json save_json kwargs = inr self →
  DeirokayOperator.execute data_reader validate self context world
    = (world', inr value)
  ↔ ∃ world1 df checked,
      data_reader path options_json world = (world1, inr df)
      ∧ validate df assertions_json world1 = (world', inr checked)
      ∧ value = path.
Proof.
  intros Hinit.
  destruct (operator_init_fields _ _ _ _ _ _ _ Hinit) as (Hp & Ho & Ha).
  unfold DeirokayOperator.execute, bind, ret. rewrite Hp, Ho, Ha.
  destruct (data_reader path options_json world) as [world1 [e|df]].
  - split; [done|]. by intros (? & ? & ? & [=] & _).
  - destruct (validate df assertions_json world1) as [world2 [e|checked]]
      eqn:Hvalid.
    + split; [done|]. intros (? & ? & ? & [= <- <-] & Hv & _).
      by rewrite Hvalid in Hv.
    + split.
      * intros [= <- <-]. by exists world1, df, checked.
      * intros (? & ? & ? & [= <- <-] & Hv & ->).
        rewrite Hvalid in Hv. by injection Hv as <- _.
Qed.

(** X9: [execute] hands on what its two calls raise, and stops at the
    first.  It raises [e] exactly when [data_reader] raises [e], or
    [data_reader] returns a frame and [validate] raises [e] on it; and when
    [data_reader] raises, the outcome is the same whatever [validate] is, so
    validation has not run. *)
Theorem execute_raises_iff self context world world' e :
  (DeirokayOperator.execute data_reader validate self context world
     = (world', inl e)
   ↔ data_reader (DeirokayOperator.path_to_file self)
       (DeirokayOperator.deirokay_options_json self) world = (world', inl e)
     ∨ ∃ world1 df,
         data_reader (DeirokayOperator.path_to_file self)
           (DeirokayOperator.deirokay_options_json self) world
           = (world1, inr df)
         ∧ validate df (DeirokayOperator.deirokay_assertions_json self) world1
           = (world', inl e))
  ∧ (data_reader (DeirokayOperator.path_to_file self)
       (DeirokayOperator.deirokay_options_json self) world = (world', inl e) →
     ∀ validate' : DataFrame → string → M World PyVal,
       DeirokayOperator.execute data_reader validate' self context world
         = (world', inl e)).
Proof.
  unfold DeirokayOperator.execute, bind, ret. split.
  - destruct (data_reader _ _ world) as [world1 [e1|df]].
    + split.
      * intros [= <- <-]. by left.
      * intros [[= <- <-]|(? & ? & [=] & _)]. done.
    + destruct (validate df _ world1) as [world2 [e2|checked]] eqn:Hvalid.
      * split.
        -- intros [= <- <-]. right. by exists world1, df.
        -- intros [[=]|(? & ? & [= <- <-] & Hv)].
           rewrite Hvalid in Hv. by injection Hv as <- <-.
      * split; [done|].
        intros [[=]|(? & ? & [= <- <-] & Hv)]. by rewrite Hvalid in Hv.
  - intros Hread validate'. by rewrite Hread.
Qed.

End OperatorGate.

(** ** More runs on the sample class and the sample operator *)

(** A mapping [RowCount] constructs from, and one with two of its keys. *)
Lemma construct_of_fewer_keys_witness :
  let options : pydict :=
    [("type", PyStr "row_count"); ("min", PyInt 1); ("max", PyInt 9)] in
  let options' : pydict := [("max", PyNone); ("type", PyInt 0)] in
  (∀ k, k ∈ keys options' → k ∈ keys options)
  ∧ (∀ k, k ∈ unexpected_parameters RowCount options' →
          k ∈ unexpected_parameters RowCount options)
  ∧ ((∃ self, construct RowCount options = inr self) →
     construct RowCount options' = inr {[ "options" := PyDict options' ]}).
Proof.
  intros options options'.
  assert (Hsub : ∀ k, k ∈ keys options' → k ∈ keys options).
  { intros k Hk. simpl in *.
    apply elem_of_cons in Hk as [->|Hk]; [do 2 right; left|].
    apply list_elem_of_singleton in Hk as ->. left. }
  split; [exact Hsub|].
  exact (construct_of_fewer_keys RowCount options options' Hsub).
Defined.

(** [BaseStatement] and [RowCount], which accepts all that the base does. *)
Lemma construct_of_wider_class_witness :
  let options : pydict := [("severity", PyInt 3); ("min", PyInt 1)] in
  (∀ k, k ∈ expected_parameters (@BaseStatement Frame) →
        k ∈ accepted_parameters RowCount)
  ∧ unexpected_parameters RowCount options
       `sublist_of` unexpected_parameters (@BaseStatement Frame) options
  ∧ ((∃ self, construct (@BaseStatement Frame) options = inr self) →
     construct RowCount options = inr {[ "options" := PyDict options ]}).
Proof.
  intros options.
  assert (Hwider : ∀ k, k ∈ expected_parameters (@BaseStatement Frame) →
                        k ∈ accepted_parameters RowCount).
  { intros k Hk. unfold accepted_parameters. apply elem_of_app. by right. }
  split; [exact Hwider|].
  exact (construct_of_wider_class BaseStatement RowCount options Hwider).
Defined.

(** A mapping with an offending key first, and the same with it last. *)
Lemma construct_of_rearranged_keys_witness :
  let options : pydict := [("rows", PyInt 2); ("min", PyInt 1)] in
  let options' : pydict := [("min", PyInt 1); ("rows", PyInt 2)] in
  keys options ≡ₚ keys options'
  ∧ unexpected_parameters RowCount options
      ≡ₚ unexpected_parameters RowCount options'
  ∧ ((∃ self, construct RowCount options = inr self)
     ↔ ∃ self, construct RowCount options' = inr self).
Proof.
  intros options options'.
  assert (Hperm : keys options ≡ₚ keys options') by apply Permutation_swap.
  split; [exact Hperm|].
  exact (construct_of_rearranged_keys RowCount options options' Hperm).
Defined.

(** A mapping of four distinct keys, two of them offending. *)
Lemma listed_keys_distinct_witness :
  let options : pydict :=
    [("rows", PyInt 2); ("min", PyInt 1); ("kind", PyNone);
     ("type", PyStr "row_count")] in
  NoDup (keys options)
  ∧ NoDup (unexpected_parameters RowCount options)
  ∧ (∀ k, k ∈ unexpected_parameters RowCount options
          ↔ k ∈ keys options ∧ k ∉ accepted_parameters RowCount)
  ∧ unexpected_parameters RowCount options
      ++ keys (filter (λ item, item.1 ∈ accepted_parameters RowCount) options)
    ≡ₚ keys options
  ∧ NoDup (unexpected_parameters RowCount options
             ++ keys (filter (λ item, item.1 ∈ accepted_parameters RowCount)
                        options)).
Proof.
  intros options.
  assert (Hnodup : NoDup (keys options)).
  { apply (bool_decide_unpack _). reflexivity. }
  split; [exact Hnodup|].
  exact (listed_keys_distinct RowCount options Hnodup).
Defined.

(** What is listed and what is kept of that mapping. *)
Example row_count_listed_and_kept :
  let options : pydict :=
    [("rows", PyInt 2); ("min", PyInt 1); ("kind", PyNone);
     ("type", PyStr "row_count")] in
  unexpected_parameters RowCount options = ["rows"; "kind"]
  ∧ keys (filter (λ item, item.1 ∈ accepted_parameters RowCount) options)
    = ["min"; "type"].
Proof. split; reflexivity. Qed.

(** The error of [BaseStatement], whose message names all it accepts. *)
Lemma error_names_accepted_set_iff_witness :
  let message :=
    [ Lit "Invalid parameters passed to "; FmtStr "BaseStatement";
      Lit " statement: "; FmtList ["min"];
      Lit (newline +:+ "The valid parameters are: ");
      FmtList ["type"; "severity"; "location"] ] in
  construct (@BaseStatement Frame) [("min", PyInt 1); ("type", PyNone)]
    = inl (ValueError message)
  ∧ ((∀ k, k ∈ accepted_parameters (@BaseStatement Frame) → names message k)
     ↔ (∀ k, k ∈ ["type"; "severity"; "location"] →
             k ∈ expected_parameters (@BaseStatement Frame))).
Proof.
  intros message. split; [reflexivity|].
  apply (error_names_accepted_set_iff BaseStatement
           [("min", PyInt 1); ("type", PyNone)] message).
  reflexivity.
Defined.

(** The sample operator on a world with its file. *)
Lemma execute_returns_iff_read_and_validated_witness :
  let kwargs : pydict := [("task_id", PyStr "check_sales")] in
  let self :=
    {| DeirokayOperator.base := kwargs;
       DeirokayOperator.path_to_file := "sales.csv";
       DeirokayOperator.deirokay_options_json := "options.json";
       DeirokayOperator.deirokay_assertions_json := "assertions.json" |} in
  let world : Files := {[ "sales.csv" := [[PyInt 1]] ]} in
  DeirokayOperator.__init__ base_operator_init
    "sales.csv" "options.json" "assertions.json" None kwargs = inr self
  ∧ (DeirokayOperator.execute read_frame validate_frame self PyNone world
       = (world, inr "sales.csv")
     ↔ ∃ world1 df checked,
         read_frame "sales.csv" "options.json" world = (world1, inr df)
         ∧ validate_frame df "assertions.json" world1 = (world, inr checked)
         ∧ "sales.csv" = "sales.csv").
Proof.
  intros kwargs self world. split; [reflexivity|].
  apply (execute_returns_iff_read_and_validated base_operator_init
           read_frame validate_frame
           "sales.csv" "options.json" "assertions.json" None kwargs self
           PyNone world world "sales.csv").
  reflexivity.
Defined.

(** [RowCount] with an offending key raises before any frame is seen; with
    none it counts the rows against the [min] it was given. *)
Example row_count_rejected_before_evaluation :
  construct_and_evaluate RowCount [("minimum", PyInt 3)] [[PyInt 1]]
  = inl (ValueError
           [ Lit "Invalid parameters passed to "; FmtStr "RowCount";
             Lit " statement: "; FmtList ["minimum"];
             Lit (newline +:+ "The valid parameters are: ");
             FmtList ["min"; "max"] ]).
Proof. reflexivity. Qed.

Example row_count_constructed_and_evaluated :
  construct_and_evaluate RowCount [("min", PyInt 3)] [[PyInt 1]; [PyInt 2]]
  = inr (PyDict [ ("detail", PyDict [("rows", PyInt 2)]);
                  ("result", PyBool false) ]).
Proof. reflexivity. Qed.

(** [StrictMin] constructs from the empty mapping, and its report phase
    raises when the instance is evaluated. *)
Example strict_min_raises_at_evaluation :
  construct_and_evaluate StrictMin [] [[PyInt 1]]
  = inl (Exception "KeyError" "min").
Proof. reflexivity. Qed.

Example strict_min_constructed_and_evaluated :
  construct_and_evaluate StrictMin [("min", PyInt 3)] [[PyInt 1]]
  = inr (PyDict [ ("detail", PyDict [("min", PyInt 3)]);
                  ("result", PyBool true) ]).
Proof. reflexivity. Qed.

(** Validation raising on an empty frame: [execute] hands the error on. *)
Example execute_on_empty_file :
  let self :=
    {| DeirokayOperator.base := ([] : pydict);
       DeirokayOperator.path_to_file := "sales.csv";
       DeirokayOperator.deirokay_options_json := "options.json";
       DeirokayOperator.deirokay_assertions_json := "assertions.json" |} in
  let world : Files := {[ "sales.csv" := [] ]} in
  DeirokayOperator.execute read_frame validate_frame self PyNone world
    = (world, inl (Exception "ValidationError" "assertions.json")).
Proof. reflexivity. Qed.
